(** * email-setup: SPF, DKIM and DMARC configuration checks

    A shallow embedding of [src/index.js].  Every public operation of the
    module is an [async] function that suspends only on [dns.resolveTxt];
    it is embedded as a computation in a small promise monad whose state is
    the list of names handed to [dns.resolveTxt] so far (what the test-suite
    reads back as [dns.resolveTxt.mock.calls]) and whose result is either a
    fulfilled value or the JavaScript error the promise was rejected with. *)

From Stdlib Require Import ZArith Bool.
From stdpp Require Import base option list strings gmap.

Local Open Scope string_scope.
Local Open Scope Z_scope.

(** ** JavaScript errors and settled promises *)

(** An [Error] object.  Node's resolver attaches a string [code] to the
    errors it produces; any other error has no such property. *)
Record JsError : Type := mkError {
  err_message : string;
  code : option string
}.

Inductive Outcome (A : Type) : Type :=
| Resolved (a : A)
| Rejected (e : JsError).
Arguments Resolved {A} a.
Arguments Rejected {A} e.

(** The names [dns.resolveTxt] has been called with, oldest first. *)
Definition Calls : Type := list string.

Definition Promise (A : Type) : Type := Calls -> Outcome A * Calls.

Definition resolve {A} (a : A) : Promise A := fun calls => (Resolved a, calls).

Definition throw {A} (e : JsError) : Promise A := fun calls => (Rejected e, calls).

Definition await {A B} (p : Promise A) (k : A -> Promise B) : Promise B :=
  fun calls =>
    match p calls with
    | (Resolved a, calls') => k a calls'
    | (Rejected e, calls') => (Rejected e, calls')
    end.

(** [try { body } catch (err) { handler }] *)
Definition try_catch {A} (body : Promise A) (handler : JsError -> Promise A) : Promise A :=
  fun calls =>
    match body calls with
    | (Resolved a, calls') => (Resolved a, calls')
    | (Rejected e, calls') => handler e calls'
    end.

#[global] Instance promise_ret : MRet Promise := @resolve.
#[global] Instance promise_bind : MBind Promise := fun A B k p => await p k.

(** ** The [dns] module *)

Module dns.
Definition NODATA : string := "ENODATA".
Definition FORMERR : string := "EFORMERR".
Definition SERVFAIL : string := "ESERVFAIL".
Definition NOTFOUND : string := "ENOTFOUND".
Definition TIMEOUT : string := "ETIMEOUT".

(** What the resolver answers for a name: the TXT records, each an array
    of chunks, or an error. *)
Definition Answers : Type := string -> Outcome (list (list string)).

(** [dns.resolveTxt(name, dnsProm.defer())] followed by [await dnsProm]:
    one call is recorded and the promise settles with the answer. *)
Definition resolveTxt (answers : Answers) (name : string)
  : Promise (list (list string)) :=
  fun calls => (answers name, (calls ++ [name])%list).
End dns.

(** ** The few [underscore] helpers the module uses *)

Module Underscore.
(** [_.contains(list, err.code)]; a missing [code] is [undefined] and
    equals no string. *)
Definition contains (l : list string) (c : option string) : bool :=
  match c with
  | Some c => existsb (String.eqb c) l
  | None => false
  end.

(** [_.chain(records).flatten()]; [null] chains as the empty array. *)
Definition flatten (records : option (list (list string))) : list string :=
  match records with
  | Some rs => concat rs
  | None => []
  end.

(** [_.compact] drops the falsy elements: for strings, the empty ones. *)
Definition compact (l : list string) : list string :=
  List.filter (fun s => negb (String.eqb s EmptyString)) l.

(** [!value] for an optional string: [undefined] and [''] are falsy. *)
Definition falsy (v : option string) : bool :=
  match v with
  | None => true
  | Some s => String.eqb s EmptyString
  end.
End Underscore.

(** ** Parsed records (the shapes spf-parse and dmarc-parse return) *)

Record Mechanism : Type := mkMechanism {
  mprefix : string;
  prefixdesc : string;
  mtype : string;
  description : string;
  value : option string
}.

Record Message : Type := mkMessage {
  message : string;
  msg_type : string
}.

Record SpfRecord : Type := mkSpfRecord {
  mechanisms : list Mechanism;
  messages : option (list Message);
  valid : bool
}.

Record DmarcRecord : Type := mkDmarcRecord {
  tags : gmap string string
}.

(** The part of spf-master's report the module reads. *)
Record Found : Type := mkFound {
  includes : list string;
  domains : list string
}.

Record Report : Type := mkReport {
  found : Found
}.

(** ** Constants of the module *)

Definition NO_DNS_RECORD : list string := [dns.NOTFOUND; dns.NODATA; dns.SERVFAIL].

(** The double-quote character, for the warning texts below. *)
Definition dquote : string := String (Ascii.ascii_of_nat 34) EmptyString.

(** Warnings from spf-parse. *)
Definition ALL_MECHANISM_IS_NOT_THE_LAST : string :=
  Eval cbv in
    ("One or more mechanisms were found after the " ++ dquote ++ "all" ++ dquote
     ++ " mechanism. These mechanisms will be ignored")%string.

Definition ALL_AND_REDIRECT_ARE_MISSING : string :=
  Eval cbv in
    ("SPF strings should always either use an " ++ dquote ++ "all" ++ dquote
     ++ " mechanism or a " ++ dquote ++ "redirect" ++ dquote
     ++ " modifier to explicitly terminate processing.")%string.

(** Constants to export to allow users to compare setup values. *)
Definition NOT_SETUP : string := "not_setup".
Definition INVALID : string := "invalid".
Definition SETUP : string := "setup".

(** The optional [validations] argument of [spfSetup]; a property left out
    is [undefined], which the checks read as false. *)
Record Validations : Type := mkValidations {
  allMechanismIsTheLast : bool;
  allMechanismOrRedirectModifierIsPresent : bool
}.

Definition default_validations : Validations :=
  {| allMechanismIsTheLast := false;
     allMechanismOrRedirectModifierIsPresent := false |}.

Definition default_limit : Z := 10.

(** ** The spf-master collaborator *)

(** The module calls [SpfInspector] of the spf-master package, whose code
    is not part of the sources.  It is modelled here from the spec's
    lookup-budget evaluator: a depth-first walk from the root domain with
    one TXT resolution per visited domain, which tallies the [include]
    resolutions it performs and the [a] mechanisms it meets, neither tally
    deduplicated. *)

Module SpfMaster.

(** Modelled from the spec: the two mechanism kinds the [SpfInspector]
    walk follows and counts, [include] and [a]. *)
Inductive Lookup : Type :=
| Include (target : string)
| A (host : option string).

(** Modelled from the spec: what [SpfInspector] takes from a parsed
    mechanism; [mx], [ptr], [exists], [all], [ip4], [ip6] and the
    [redirect] modifier are not counted, and an [include] without a domain
    gives nothing to resolve. *)
Definition lookup_of (m : Mechanism) : option Lookup :=
  if String.eqb (mtype m) "include" then Include <$> value m
  else if String.eqb (mtype m) "a" then Some (A (value m))
  else None.

(** Modelled from the spec: the [include] tally of [SpfInspector]; a
    repeated include is counted at each occurrence. *)
Definition tally_include (target : string) (acc : Found) : Found :=
  {| includes := includes acc ++ [target]; domains := domains acc |}.

(** Modelled from the spec: the [a] tally of [SpfInspector]; like the
    [include] tally it grows at each occurrence, repeated hosts are not
    deduplicated. *)
Definition tally_a (host : string) (acc : Found) : Found :=
  {| includes := includes acc; domains := domains acc ++ [host] |}.

Section Inspector.
Variable answers : dns.Answers.
Variable spfParse : string -> SpfRecord.

(** Modelled from the spec: the step of [SpfInspector] over one visited
    record, its [include] and [a] mechanisms in order.  [follow] resolves
    an included domain; it is [None] once the depth bound is reached, and
    then an [include] is neither resolved nor tallied.  An [a] is tallied
    without a TXT resolution; without a value it names the visited
    domain. *)
Fixpoint walk (follow : option (string -> Found -> Promise Found))
    (current : string) (todo : list Lookup) (acc : Found) : Promise Found :=
  match todo with
  | [] => mret acc
  | Include target :: todo' =>
      match follow with
      | Some resolveInclude =>
          acc' ← resolveInclude target (tally_include target acc);
          walk follow current todo' acc'
      | None => walk follow current todo' acc
      end
  | A host :: todo' =>
      walk follow current todo' (tally_a (default current host) acc)
  end.

(** Modelled from the spec: the recursion of [SpfInspector], bounded by
    the number of levels still allowed below the visited domain.  The TXT
    resolution of the domain comes first and its failure rejects the whole
    inspection with the resolver's error; a domain without an SPF record
    adds nothing; the record's validity flag is not read. *)
Fixpoint inspect (depth : nat) (domain : string) (acc : Found) : Promise Found :=
  records ← dns.resolveTxt answers domain;
  match List.find (String.prefix "v=spf1") (concat records) with
  | None => mret acc
  | Some raw =>
      walk (match depth with
            | O => None
            | S depth' => Some (inspect depth')
            end)
           domain (omap lookup_of (mechanisms (spfParse raw))) acc
  end.

(** Modelled from the spec: [SpfInspector(domain, { maxDepth }, flag)] of
    the spf-master package.  The walk starts at [domain] with empty
    tallies and may descend [maxDepth] levels.  The spec does not describe
    the third argument; the module always passes true and the model does
    not depend on it. *)
Definition SpfInspector (domain : string) (maxDepth : Z) (flag : bool)
  : Promise Report :=
  found ← inspect (Z.to_nat maxDepth) domain {| includes := []; domains := [] |};
  mret {| found := found |}.
End Inspector.

End SpfMaster.

(** ** The module's functions *)

Section EmailSetup.

(** The collaborators: the resolver's answers, the two parsers, and
    spf-master's [SpfInspector(domain, { maxDepth }, flag)]. *)
Variable answers : dns.Answers.
Variable spfParse : string -> SpfRecord.
Variable dmarcParse : string -> DmarcRecord.
Variable SpfInspector : string -> Z -> bool -> Promise Report.

(** Returns the TXT records for the domain, [null] if none are found. *)
Definition _getDNSTXTRecords (domain : string) : Promise (option (list (list string))) :=
  try_catch
    (records ← dns.resolveTxt answers domain;
     mret (Some records))
    (fun err =>
       if Underscore.contains NO_DNS_RECORD (code err)
       then mret None
       else throw err).

(** Returns the parsed SPF record, [null] if there was no record found. *)
Definition _getSPFRecord (domain : string) : Promise (option SpfRecord) :=
  records ← _getDNSTXTRecords domain;
  let rawSPFRecord :=
    List.find (String.prefix "v=spf1") (Underscore.flatten records) in
  if Underscore.falsy rawSPFRecord then mret None
  else mret (spfParse <$> rawSPFRecord).

(** Checks whether a domain has setup a valid SPF record. *)
Definition spfSetup (domain : string) (validations : Validations) : Promise string :=
  spfRecord ← _getSPFRecord domain;
  match spfRecord with
  | None => mret NOT_SETUP
  | Some spfRecord =>
      if negb (valid spfRecord) then mret INVALID
      else
        match messages spfRecord with
        | Some msgs =>
            let allMechanismIsNotTheLast :=
              existsb (fun m => String.eqb (message m) ALL_MECHANISM_IS_NOT_THE_LAST) msgs in
            if allMechanismIsTheLast validations && allMechanismIsNotTheLast
            then mret INVALID
            else
              let allAndRedirectAreMissing :=
                existsb (fun m => String.eqb (message m) ALL_AND_REDIRECT_ARE_MISSING) msgs in
              if allMechanismOrRedirectModifierIsPresent validations && allAndRedirectAreMissing
              then mret INVALID
              else mret SETUP
        | None => mret SETUP
        end
  end.

(** The predicate of [_.findWhere(list, { prefixdesc: 'Pass', type:
    'include', value: sender })]. *)
Definition isPassInclude (sender : string) (m : Mechanism) : bool :=
  String.eqb (prefixdesc m) "Pass"
  && String.eqb (mtype m) "include"
  && match value m with
     | Some v => String.eqb v sender
     | None => false
     end.

(** Checks whether the SPF record allows [sender]; top-level includes
    only. *)
Definition hasSPFSender (domain sender : string) : Promise bool :=
  spfRecord ← _getSPFRecord domain;
  match spfRecord with
  | None => mret false
  | Some spfRecord =>
      if negb (valid spfRecord) then mret false
      else
        mret (match List.find (isPassInclude sender) (mechanisms spfRecord) with
              | Some _ => true
              | None => false
              end)
  end.

(** Checks whether the SPF record resolves within [limit] DNS lookups, as
    counted by the inspector. *)
Definition spfRecordResolvesWithinDnsLookupsLimit (domain : string) (limit : Z)
  : Promise bool :=
  try_catch
    (report ← SpfInspector domain limit true;
     let numberOfIncludeLookups := Z.of_nat (length (includes (found report))) in
     let numberOfALookups := Z.of_nat (length (domains (found report))) in
     mret (numberOfIncludeLookups + numberOfALookups <=? limit))
    (fun err =>
       if Underscore.contains NO_DNS_RECORD (code err)
       then mret false
       else throw err).

(** Checks whether a DKIM record is set up under [selector]. *)
Definition hasDKIMRecordForSelector (domain selector : string) : Promise string :=
  try_catch
    (records ← dns.resolveTxt answers (selector ++ "._domainkey." ++ domain)%string;
     mret (if (0 <? Z.of_nat (length (Underscore.compact (Underscore.flatten (Some records)))))
           then SETUP else NOT_SETUP))
    (fun err =>
       if Underscore.contains NO_DNS_RECORD (code err)
       then mret NOT_SETUP
       else throw err).

(** Retrieves the parsed DMARC record, [null] if there is none. *)
Definition _getDMARCRecord (domain : string) : Promise (option DmarcRecord) :=
  records ← _getDNSTXTRecords ("_dmarc." ++ domain)%string;
  let rawDMARCRecord := head (Underscore.flatten records) in
  if Underscore.falsy rawDMARCRecord then mret None
  else mret (dmarcParse <$> rawDMARCRecord).

(** Checks whether a domain has setup a valid DMARC record. *)
Definition dmarcSetup (domain : string) : Promise string :=
  dmarcRecord ← _getDMARCRecord domain;
  match dmarcRecord with
  | None => mret NOT_SETUP
  | Some dmarcRecord =>
      if negb (bool_decide (tags dmarcRecord = ∅)) then mret SETUP else mret INVALID
  end.

End EmailSetup.

(** ** The module before the lookups-limit check

    The earlier revision of [index.js] (also shipped compiled): SERVFAIL is
    not yet among the codes of a missing record, [spfSetup] takes no
    validations, and there is no lookups-limit check. *)

Module Legacy.

Definition NO_DNS_RECORD : list string := [dns.NOTFOUND; dns.NODATA].

Section EmailSetup.
Variable answers : dns.Answers.
Variable spfParse : string -> SpfRecord.
Variable dmarcParse : string -> DmarcRecord.

Definition _getDNSTXTRecords (domain : string) : Promise (option (list (list string))) :=
  try_catch
    (records ← dns.resolveTxt answers domain;
     mret (Some records))
    (fun err =>
       if Underscore.contains NO_DNS_RECORD (code err)
       then mret None
       else throw err).

Definition _getSPFRecord (domain : string) : Promise (option SpfRecord) :=
  records ← _getDNSTXTRecords domain;
  let rawSPFRecord :=
    List.find (String.prefix "v=spf1") (Underscore.flatten records) in
  if Underscore.falsy rawSPFRecord then mret None
  else mret (spfParse <$> rawSPFRecord).

Definition spfSetup (domain : string) : Promise string :=
  spfRecord ← _getSPFRecord domain;
  match spfRecord with
  | None => mret NOT_SETUP
  | Some spfRecord =>
      if negb (valid spfRecord) then mret INVALID
      else mret SETUP
  end.

Definition hasSPFSender (domain sender : string) : Promise bool :=
  spfRecord ← _getSPFRecord domain;
  match spfRecord with
  | None => mret false
  | Some spfRecord =>
      if negb (valid spfRecord) then mret false
      else
        mret (match List.find (isPassInclude sender) (mechanisms spfRecord) with
              | Some _ => true
              | None => false
              end)
  end.

Definition hasDKIMRecordForSelector (domain selector : string) : Promise string :=
  try_catch
    (records ← dns.resolveTxt answers (selector ++ "._domainkey." ++ domain)%string;
     mret (if (0 <? Z.of_nat (length (Underscore.compact (Underscore.flatten (Some records)))))
           then SETUP else NOT_SETUP))
    (fun err =>
       if Underscore.contains NO_DNS_RECORD (code err)
       then mret NOT_SETUP
       else throw err).

Definition _getDMARCRecord (domain : string) : Promise (option DmarcRecord) :=
  records ← _getDNSTXTRecords ("_dmarc." ++ domain)%string;
  let rawDMARCRecord := head (Underscore.flatten records) in
  if Underscore.falsy rawDMARCRecord then mret None
  else mret (dmarcParse <$> rawDMARCRecord).

Definition dmarcSetup (domain : string) : Promise string :=
  dmarcRecord ← _getDMARCRecord domain;
  match dmarcRecord with
  | None => mret NOT_SETUP
  | Some dmarcRecord =>
      if negb (bool_decide (tags dmarcRecord = ∅)) then mret SETUP else mret INVALID
  end.

End EmailSetup.

End Legacy.

(** ** The lookup table of the test-suite *)

Module Fixture.

Definition dnsErr (errCode : string) : JsError :=
  {| err_message := "dns error"; code := Some errCode |}.

Definition mech (p pd t : string) (v : option string) : Mechanism :=
  {| mprefix := p; prefixdesc := pd; mtype := t; description := t; value := v |}.

Definition version : Mechanism := mech "v" "version" "version" (Some "spf1").
Definition include (d : string) : Mechanism := mech "+" "Pass" "include" (Some d).
Definition a (d : string) : Mechanism := mech "+" "Pass" "a" (Some d).
Definition mx : Mechanism := mech "+" "Pass" "mx" None.
Definition redirect (d : string) : Mechanism := mech "+" "Pass" "redirect" (Some d).
Definition all (p pd : string) : Mechanism := mech p pd "all" None.

(** [domainSPFResults], with two more names: one whose TXT record is an
    empty string and one whose SPF record carries both warnings. *)
Definition domainSPFResults : list (string * Outcome (list (list string))) :=
  [ ("no.spf.com", Rejected (dnsErr dns.NODATA));
    ("invalid.spf.com", Resolved [["v=spf1 redirect=foo.com redirect=bar.com ~all"]]);
    ("valid.spf.com", Resolved [["v=spf1 include:_spf.google.com -all"]]);
    ("google._domainkey.no.spf.com", Rejected (dnsErr dns.NODATA));
    ("google._domainkey.valid.spf.com", Resolved [["a value"]]);
    ("_dmarc.no.spf.com", Rejected (dnsErr dns.NOTFOUND));
    ("_dmarc.invalid.spf.com", Resolved [["invalid dmarc"]]);
    ("_dmarc.valid.spf.com", Resolved [["v=DMARC1; p=none"]]);
    ("google._domainkey.missing-dkim.com", Rejected (dnsErr dns.SERVFAIL));
    ("valid_with_include_and_a.spf.com",
      Resolved [["v=spf1 include:valid_with_a.spf.com a:valid_with_only_all.spf.com -all"]]);
    ("valid_with_a.spf.com", Resolved [["v=spf1 a:valid_with_only_all.spf.com -all"]]);
    ("valid_with_only_all.spf.com", Resolved [["v=spf1 mx -all"]]);
    ("_dmarc.empty.txt.com", Resolved [[EmptyString; "v=DMARC1; p=none"]]);
    ("warned.spf.com", Resolved [["v=spf1 -all include:_spf.google.com"]]) ].

Fixpoint assoc {V} (k : string) (l : list (string * V)) : option V :=
  match l with
  | [] => None
  | (k', v) :: l' => if String.eqb k k' then Some v else assoc k l'
  end.

(** The stubbed [dns.resolveTxt]. *)
Definition answers : dns.Answers :=
  fun domain =>
    match assoc domain domainSPFResults with
    | Some val => val
    | None => Rejected {| err_message := "no such domain"; code := None |}
    end.

(** What spf-parse makes of the SPF strings of the table. *)
Definition spfParse (raw : string) : SpfRecord :=
  default {| mechanisms := [version]; messages := None; valid := false |}
    (assoc raw
      [ ("v=spf1 redirect=foo.com redirect=bar.com ~all",
          {| mechanisms := [version; redirect "foo.com"; redirect "bar.com"; all "~" "SoftFail"];
             messages := Some [ {| message := "Modifier `redirect` may appear only once";
                                   msg_type := "error" |} ];
             valid := false |});
        ("v=spf1 include:_spf.google.com -all",
          {| mechanisms := [version; include "_spf.google.com"; all "-" "Fail"];
             messages := None; valid := true |});
        ("v=spf1 include:valid_with_a.spf.com a:valid_with_only_all.spf.com -all",
          {| mechanisms := [version; include "valid_with_a.spf.com";
                            a "valid_with_only_all.spf.com"; all "-" "Fail"];
             messages := None; valid := true |});
        ("v=spf1 a:valid_with_only_all.spf.com -all",
          {| mechanisms := [version; a "valid_with_only_all.spf.com"; all "-" "Fail"];
             messages := None; valid := true |});
        ("v=spf1 mx -all",
          {| mechanisms := [version; mx; all "-" "Fail"];
             messages := None; valid := true |});
        ("v=spf1 -all include:_spf.google.com",
          {| mechanisms := [version; all "-" "Fail"; include "_spf.google.com"];
             messages := Some [ {| message := ALL_MECHANISM_IS_NOT_THE_LAST;
                                   msg_type := "warning" |} ];
             valid := true |}) ]).

(** What dmarc-parse makes of the DMARC strings of the table. *)
Definition dmarcParse (raw : string) : DmarcRecord :=
  if String.eqb raw "v=DMARC1; p=none"
  then {| tags := <["v" := "DMARC1"]> (<["p" := "none"]> ∅) |}
  else {| tags := ∅ |}.

End Fixture.

(** ** Notions used to state the properties *)

(** What [_getDNSTXTRecords] settles with, given the resolver's answer. *)
Definition classify (answer : Outcome (list (list string)))
  : Outcome (option (list (list string))) :=
  match answer with
  | Resolved records => Resolved (Some records)
  | Rejected err =>
      if Underscore.contains NO_DNS_RECORD (code err) then Resolved None else Rejected err
  end.

(** The first TXT chunk that starts with [v=spf1], if any. *)
Definition firstSpf (records : option (list (list string))) : option string :=
  List.find (String.prefix "v=spf1") (Underscore.flatten records).

(** The parser emitted the diagnostic [text]. *)
Definition emitted (text : string) (spfRecord : SpfRecord) : bool :=
  match messages spfRecord with
  | Some msgs => existsb (fun m => String.eqb (message m) text) msgs
  | None => false
  end.

(** What the inspector follows from a visited record at a given depth
    budget. *)
Definition follow (answers : dns.Answers) (spfParse : string -> SpfRecord) (depth : nat)
  : option (string -> Found -> Promise Found) :=
  match depth with
  | O => None
  | S depth' => Some (SpfMaster.inspect answers spfParse depth')
  end.

(** The [include] and [a] mechanisms of a parsed record, in order. *)
Definition lookups (spfRecord : SpfRecord) : list SpfMaster.Lookup :=
  omap SpfMaster.lookup_of (mechanisms spfRecord).

(** [sender] is a top-level [include] mechanism with the Pass qualifier. *)
Definition authorizes (sender : string) (spfRecord : SpfRecord) : Prop :=
  exists m, In m (mechanisms spfRecord)
            /\ mtype m = "include" /\ prefixdesc m = "Pass" /\ value m = Some sender.



(** The error's code is none of NOTFOUND, NODATA, SERVFAIL. *)
Definition otherFailure (err : JsError) : Prop :=
  code err <> Some dns.NOTFOUND /\ code err <> Some dns.NODATA
  /\ code err <> Some dns.SERVFAIL.

(** The resolver [answers] with the answer for [name] replaced. *)
Definition override (answers : dns.Answers) (name : string)
    (answer : Outcome (list (list string))) : dns.Answers :=
  fun n => if String.eqb n name then answer else answers n.

(** Two answers that differ at most in how the chunks are grouped into
    records. *)
Definition same_chunks (a b : Outcome (list (list string))) : Prop :=
  match a, b with
  | Resolved records, Resolved records' => concat records = concat records'
  | Rejected err, Rejected err' => err = err'
  | _, _ => False
  end.

(** The check settled with one of the three exported constants, if it
    settled with a value. *)
Definition is_setup_state (result : Outcome string) : Prop :=
  match result with
  | Resolved state => state = NOT_SETUP \/ state = INVALID \/ state = SETUP
  | Rejected _ => True
  end.

(** The names the three record kinds are looked up under. *)
Definition dkimName (domain selector : string) : string :=
  (selector ++ "._domainkey." ++ domain)%string.

Definition dmarcName (domain : string) : string := ("_dmarc." ++ domain)%string.

(** ** A stand-in inspector *)



(** * Properties *)

(** ** Running the record fetchers *)

Section Fetch.
Variable answers : dns.Answers.
Variable spfParse : string -> SpfRecord.
Variable dmarcParse : string -> DmarcRecord.

Lemma getDNSTXTRecords_run domain calls :
  _getDNSTXTRecords answers domain calls
  = (classify (answers domain), (calls ++ [domain])%list).
Proof.
  unfold _getDNSTXTRecords, try_catch, mbind, promise_bind, await, dns.resolveTxt, classify.
  destruct (answers domain) as [records|err]; [reflexivity|].
  destruct (Underscore.contains NO_DNS_RECORD (code err)); reflexivity.
Qed.

Lemma prefix_nonempty p s :
  p <> EmptyString -> String.prefix p s = true -> String.eqb s EmptyString = false.
Proof.
  intros Hp Hs. destruct s as [|c s]; [|reflexivity].
  destruct p; [congruence | discriminate].
Qed.

Lemma find_spf_truthy l :
  Underscore.falsy (List.find (String.prefix "v=spf1") l)
  = match List.find (String.prefix "v=spf1") l with Some _ => false | None => true end.
Proof.
  destruct (List.find _ l) as [raw|] eqn:Hfind; [|reflexivity].
  apply find_some in Hfind as [_ Hpre]. simpl.
  eapply prefix_nonempty; [|exact Hpre]. discriminate.
Qed.

Lemma getSPFRecord_run domain calls :
  _getSPFRecord answers spfParse domain calls
  = (match classify (answers domain) with
     | Resolved records =>
         Resolved (spfParse <$> List.find (String.prefix "v=spf1") (Underscore.flatten records))
     | Rejected err => Rejected err
     end, (calls ++ [domain])%list).
Proof.
  unfold _getSPFRecord, mbind, promise_bind, await.
  rewrite getDNSTXTRecords_run.
  destruct (classify (answers domain)) as [records|err]; [|reflexivity].
  rewrite find_spf_truthy.
  destruct (List.find _ _); reflexivity.
Qed.

Lemma getDMARCRecord_run domain calls :
  _getDMARCRecord answers dmarcParse domain calls
  = (match classify (answers ("_dmarc." ++ domain)%string) with
     | Resolved records =>
         Resolved (if Underscore.falsy (head (Underscore.flatten records)) then None
                   else dmarcParse <$> head (Underscore.flatten records))
     | Rejected err => Rejected err
     end, (calls ++ ["_dmarc." ++ domain]%string)%list).
Proof.
  unfold _getDMARCRecord, mbind, promise_bind, await.
  rewrite getDNSTXTRecords_run.
  destruct (classify _) as [records|err]; [|reflexivity].
  destruct (Underscore.falsy _); reflexivity.
Qed.

End Fetch.

(** ** [spfSetup] *)

Section SpfSetup.
Variable answers : dns.Answers.
Variable spfParse : string -> SpfRecord.

Lemma spfSetup_run domain validations calls :
  spfSetup answers spfParse domain validations calls
  = (match classify (answers domain) with
     | Resolved records =>
         Resolved
           match firstSpf records with
           | None => NOT_SETUP
           | Some raw =>
               if negb (valid (spfParse raw)) then INVALID
               else if allMechanismIsTheLast validations
                       && emitted ALL_MECHANISM_IS_NOT_THE_LAST (spfParse raw)
               then INVALID
               else if allMechanismOrRedirectModifierIsPresent validations
                       && emitted ALL_AND_REDIRECT_ARE_MISSING (spfParse raw)
               then INVALID
               else SETUP
           end
     | Rejected err => Rejected err
     end, (calls ++ [domain])%list).
Proof.
  unfold spfSetup, mbind, promise_bind, await.
  rewrite getSPFRecord_run.
  destruct (classify (answers domain)) as [records|err]; [|reflexivity].
  unfold firstSpf, emitted.
  destruct (List.find _ _) as [raw|]; [|reflexivity]. simpl.
  destruct (valid (spfParse raw)); [|reflexivity]. simpl.
  destruct (messages (spfParse raw)) as [msgs|].
  - destruct (allMechanismIsTheLast validations && _); [reflexivity|].
    destruct (allMechanismOrRedirectModifierIsPresent validations && _); reflexivity.
  - rewrite !andb_false_r. reflexivity.
Qed.

(** C4.  With both validations at their default (off), [spfSetup] is
    decided by the first TXT record starting with [v=spf1]: none gives
    [not_setup], one whose parse is flagged invalid gives [invalid], any
    other gives [setup]. *)
Theorem spfSetup_default_validations domain calls records :
  fst (_getDNSTXTRecords answers domain calls) = Resolved records ->
  fst (spfSetup answers spfParse domain default_validations calls)
  = Resolved
      match firstSpf records with
      | None => NOT_SETUP
      | Some raw => if valid (spfParse raw) then SETUP else INVALID
      end.
Proof.
  rewrite getDNSTXTRecords_run, spfSetup_run. simpl. intros ->.
  destruct (firstSpf records) as [raw|]; [|reflexivity].
  destruct (valid (spfParse raw)); reflexivity.
Qed.

(** C5.  For a record that parses as valid, each requested validation
    turns its diagnostic into [invalid]; with no requested diagnostic
    present the result is [setup]. *)
Theorem spfSetup_validations domain validations calls records raw :
  fst (_getDNSTXTRecords answers domain calls) = Resolved records ->
  firstSpf records = Some raw ->
  valid (spfParse raw) = true ->
  fst (spfSetup answers spfParse domain validations calls)
  = Resolved
      (if (allMechanismIsTheLast validations
           && emitted ALL_MECHANISM_IS_NOT_THE_LAST (spfParse raw))
          || (allMechanismOrRedirectModifierIsPresent validations
              && emitted ALL_AND_REDIRECT_ARE_MISSING (spfParse raw))
       then INVALID else SETUP).
Proof.
  rewrite getDNSTXTRecords_run, spfSetup_run. simpl. intros -> -> ->. simpl.
  destruct (allMechanismIsTheLast validations && _); [reflexivity|].
  destruct (allMechanismOrRedirectModifierIsPresent validations && _); reflexivity.
Qed.

End SpfSetup.

Lemma spfSetup_default_validations_witness :
  fst (spfSetup Fixture.answers Fixture.spfParse "no.spf.com" default_validations [])
    = Resolved NOT_SETUP
  /\ fst (spfSetup Fixture.answers Fixture.spfParse "invalid.spf.com" default_validations [])
    = Resolved INVALID
  /\ fst (spfSetup Fixture.answers Fixture.spfParse "valid.spf.com" default_validations [])
    = Resolved SETUP.
Proof.
  split; [|split].
  - exact (spfSetup_default_validations Fixture.answers Fixture.spfParse
             "no.spf.com" [] None eq_refl).
  - exact (spfSetup_default_validations Fixture.answers Fixture.spfParse
             "invalid.spf.com" []
             (Some [["v=spf1 redirect=foo.com redirect=bar.com ~all"]]) eq_refl).
  - exact (spfSetup_default_validations Fixture.answers Fixture.spfParse
             "valid.spf.com" []
             (Some [["v=spf1 include:_spf.google.com -all"]]) eq_refl).
Defined.

Lemma spfSetup_validations_witness :
  fst (spfSetup Fixture.answers Fixture.spfParse "warned.spf.com"
         {| allMechanismIsTheLast := true;
            allMechanismOrRedirectModifierIsPresent := false |} [])
    = Resolved INVALID
  /\ fst (spfSetup Fixture.answers Fixture.spfParse "warned.spf.com"
         {| allMechanismIsTheLast := false;
            allMechanismOrRedirectModifierIsPresent := true |} [])
    = Resolved SETUP.
Proof.
  split.
  - exact (spfSetup_validations Fixture.answers Fixture.spfParse "warned.spf.com"
             (mkValidations true false) []
             (Some [["v=spf1 -all include:_spf.google.com"]])
             "v=spf1 -all include:_spf.google.com" eq_refl eq_refl eq_refl).
  - exact (spfSetup_validations Fixture.answers Fixture.spfParse "warned.spf.com"
             (mkValidations false true) []
             (Some [["v=spf1 -all include:_spf.google.com"]])
             "v=spf1 -all include:_spf.google.com" eq_refl eq_refl eq_refl).
Defined.

(** ** [hasSPFSender] *)

Section HasSPFSender.
Variable answers : dns.Answers.
Variable spfParse : string -> SpfRecord.

Lemma isPassInclude_spec sender m :
  isPassInclude sender m = true
  <-> mtype m = "include" /\ prefixdesc m = "Pass" /\ value m = Some sender.
Proof.
  unfold isPassInclude. rewrite !andb_true_iff, !String.eqb_eq.
  destruct (value m) as [v|].
  - rewrite String.eqb_eq. split.
    + intros [[Hp Ht] ->]. auto.
    + intros (Ht & Hp & Hv). injection Hv as ->. auto.
  - split; [intros [_ Hv] | intros (_ & _ & Hv)]; discriminate.
Qed.

Lemma findWhere_authorizes sender spfRecord :
  (exists m, List.find (isPassInclude sender) (mechanisms spfRecord) = Some m)
  <-> authorizes sender spfRecord.
Proof.
  unfold authorizes. split.
  - intros [m Hfind]. apply find_some in Hfind as [Hin Hm].
    exists m. split; [exact Hin|]. apply isPassInclude_spec, Hm.
  - intros (m & Hin & Hm). apply isPassInclude_spec in Hm.
    destruct (List.find _ _) as [m'|] eqn:Hfind; [eauto|].
    eapply find_none in Hfind; [|exact Hin]. congruence.
Qed.

Lemma hasSPFSender_run domain sender calls :
  hasSPFSender answers spfParse domain sender calls
  = (match classify (answers domain) with
     | Resolved records =>
         Resolved
           match firstSpf records with
           | None => false
           | Some raw =>
               valid (spfParse raw)
               && match List.find (isPassInclude sender) (mechanisms (spfParse raw)) with
                  | Some _ => true
                  | None => false
                  end
           end
     | Rejected err => Rejected err
     end, (calls ++ [domain])%list).
Proof.
  unfold hasSPFSender, mbind, promise_bind, await.
  rewrite getSPFRecord_run.
  destruct (classify (answers domain)) as [records|err]; [|reflexivity].
  unfold firstSpf. destruct (List.find _ _) as [raw|]; [|reflexivity]. simpl.
  destruct (valid (spfParse raw)); reflexivity.
Qed.

(** C6.  [hasSPFSender] is true exactly when the domain's SPF record
    exists, parses as valid and lists [sender] as a top-level [include]
    with the Pass qualifier; with the record absent, invalid or without
    such a mechanism it is false; and only the domain's own record is
    read, whatever the records of other (included) names say. *)
Theorem hasSPFSender_top_level_include domain sender calls :
  (fst (hasSPFSender answers spfParse domain sender calls) = Resolved true
   <-> exists records raw,
         fst (_getDNSTXTRecords answers domain calls) = Resolved records
         /\ firstSpf records = Some raw
         /\ valid (spfParse raw) = true
         /\ authorizes sender (spfParse raw))
  /\ (forall records,
        fst (_getDNSTXTRecords answers domain calls) = Resolved records ->
        (firstSpf records = None
         \/ exists raw, firstSpf records = Some raw
                        /\ (valid (spfParse raw) = false
                            \/ ~ authorizes sender (spfParse raw))) ->
        fst (hasSPFSender answers spfParse domain sender calls) = Resolved false)
  /\ (forall others : dns.Answers,
        others domain = answers domain ->
        hasSPFSender others spfParse domain sender calls
        = hasSPFSender answers spfParse domain sender calls).
Proof.
  split; [|split].
  - rewrite getDNSTXTRecords_run, hasSPFSender_run. simpl. split.
    + destruct (classify (answers domain)) as [records|err]; [|discriminate].
      destruct (firstSpf records) as [raw|] eqn:Hspf; [|discriminate].
      intros Hres. injection Hres as Hres. apply andb_true_iff in Hres as [Hvalid Hfind].
      exists records, raw.
      split; [reflexivity|]. split; [exact Hspf|]. split; [exact Hvalid|].
      apply findWhere_authorizes.
      destruct (List.find _ _) as [m|]; [eauto | discriminate].
    + intros (records & raw & -> & -> & -> & Hauth).
      apply findWhere_authorizes in Hauth as [m ->]. reflexivity.
  - rewrite getDNSTXTRecords_run, hasSPFSender_run. simpl.
    intros records -> [-> | (raw & -> & [-> | Hno])]; try reflexivity.
    destruct (List.find _ _) as [m|] eqn:Hfind.
    + exfalso. apply Hno, findWhere_authorizes. eauto.
    + rewrite andb_false_r. reflexivity.
  - intros others Hsame.
    unfold hasSPFSender, _getSPFRecord, _getDNSTXTRecords, try_catch,
      mbind, promise_bind, await, dns.resolveTxt.
    rewrite Hsame. reflexivity.
Qed.

End HasSPFSender.

Lemma hasSPFSender_top_level_include_witness :
  fst (hasSPFSender Fixture.answers Fixture.spfParse
         "valid.spf.com" "_spf.google.com" []) = Resolved true
  /\ fst (hasSPFSender Fixture.answers Fixture.spfParse
         "invalid.spf.com" "foo.com" []) = Resolved false.
Proof.
  split.
  - apply (proj1 (hasSPFSender_top_level_include Fixture.answers Fixture.spfParse
                    "valid.spf.com" "_spf.google.com" [])).
    exists (Some [["v=spf1 include:_spf.google.com -all"]]),
      "v=spf1 include:_spf.google.com -all".
    repeat split. exists (Fixture.include "_spf.google.com").
    repeat split. simpl. auto.
  - apply (proj1 (proj2 (hasSPFSender_top_level_include Fixture.answers Fixture.spfParse
                           "invalid.spf.com" "foo.com" []))
             (Some [["v=spf1 redirect=foo.com redirect=bar.com ~all"]]) eq_refl).
    right. exists "v=spf1 redirect=foo.com redirect=bar.com ~all".
    split; [reflexivity|]. left. reflexivity.
Defined.

(** ** [hasDKIMRecordForSelector] *)

Section DKIM.
Variable answers : dns.Answers.

Lemma compact_nonempty (l : list string) :
  (0 <? Z.of_nat (length (Underscore.compact l))) = true
  <-> exists s, In s l /\ s <> EmptyString.
Proof.
  unfold Underscore.compact. induction l as [|x l IH]; simpl.
  - split; [discriminate | intros (s & [] & _)].
  - destruct (String.eqb_spec x EmptyString) as [->|Hx]; simpl.
    + rewrite IH. split.
      * intros (s & Hin & Hs). eauto.
      * intros (s & [<-|Hin] & Hs); [congruence | eauto].
    + split; [eauto | intros _; apply Z.ltb_lt; lia].
Qed.

Lemma hasDKIMRecordForSelector_run domain selector calls :
  hasDKIMRecordForSelector answers domain selector calls
  = (match answers (selector ++ "._domainkey." ++ domain)%string with
     | Resolved records =>
         Resolved (if 0 <? Z.of_nat (length (Underscore.compact (concat records)))
                   then SETUP else NOT_SETUP)
     | Rejected err =>
         if Underscore.contains NO_DNS_RECORD (code err)
         then Resolved NOT_SETUP else Rejected err
     end, (calls ++ [selector ++ "._domainkey." ++ domain]%string)%list).
Proof.
  unfold hasDKIMRecordForSelector, try_catch, mbind, promise_bind, await, dns.resolveTxt.
  destruct (answers _) as [records|err]; [reflexivity|].
  destruct (Underscore.contains _ _); reflexivity.
Qed.

(** C7.  [hasDKIMRecordForSelector] gives [setup] exactly when the TXT
    resolution of [<selector>._domainkey.<domain>] succeeds with at least
    one non-empty chunk; it gives [not_setup] when every chunk is empty
    and when the resolution fails with a missing-record code; it never
    gives [invalid]. *)
Theorem hasDKIMRecordForSelector_presence domain selector calls :
  let name := (selector ++ "._domainkey." ++ domain)%string in
  (fst (hasDKIMRecordForSelector answers domain selector calls) = Resolved SETUP
   <-> exists records,
         answers name = Resolved records
         /\ exists chunk, In chunk (concat records) /\ chunk <> EmptyString)
  /\ (forall records,
        answers name = Resolved records ->
        (forall chunk, In chunk (concat records) -> chunk = EmptyString) ->
        fst (hasDKIMRecordForSelector answers domain selector calls) = Resolved NOT_SETUP)
  /\ (forall err,
        answers name = Rejected err ->
        Underscore.contains NO_DNS_RECORD (code err) = true ->
        fst (hasDKIMRecordForSelector answers domain selector calls) = Resolved NOT_SETUP)
  /\ fst (hasDKIMRecordForSelector answers domain selector calls) <> Resolved INVALID.
Proof.
  intros name. rewrite hasDKIMRecordForSelector_run. fold name. simpl.
  split; [|split; [|split]].
  - destruct (answers name) as [records|err].
    + destruct (0 <? _) eqn:Hsize.
      * split; [|reflexivity]. intros _. exists records. split; [reflexivity|].
        apply compact_nonempty, Hsize.
      * split; [discriminate|]. intros (records' & Heq & Hchunk).
        injection Heq as <-. apply compact_nonempty in Hchunk. congruence.
    + split.
      * destruct (Underscore.contains _ _); discriminate.
      * intros (records & Heq & _). discriminate.
  - intros records -> Hall.
    destruct (0 <? _) eqn:Hsize; [|reflexivity].
    apply compact_nonempty in Hsize as (chunk & Hin & Hne).
    elim Hne. apply Hall, Hin.
  - intros err -> ->. reflexivity.
  - destruct (answers name) as [records|err].
    + destruct (0 <? _); discriminate.
    + destruct (Underscore.contains _ _); discriminate.
Qed.

End DKIM.

Lemma hasDKIMRecordForSelector_presence_witness :
  fst (hasDKIMRecordForSelector Fixture.answers "valid.spf.com" "google" [])
    = Resolved SETUP
  /\ fst (hasDKIMRecordForSelector Fixture.answers "missing-dkim.com" "google" [])
    = Resolved NOT_SETUP.
Proof.
  split.
  - apply (proj1 (hasDKIMRecordForSelector_presence Fixture.answers
                    "valid.spf.com" "google" [])).
    exists [["a value"]]. split; [reflexivity|].
    exists "a value". split; [left; reflexivity | discriminate].
  - apply (proj1 (proj2 (proj2 (hasDKIMRecordForSelector_presence Fixture.answers
                                  "missing-dkim.com" "google" [])))
             (Fixture.dnsErr dns.SERVFAIL)); reflexivity.
Defined.

(** ** [dmarcSetup] *)

Section DMARC.
Variable answers : dns.Answers.
Variable dmarcParse : string -> DmarcRecord.

Lemma dmarcSetup_run domain calls :
  dmarcSetup answers dmarcParse domain calls
  = (match classify (answers ("_dmarc." ++ domain)%string) with
     | Resolved records =>
         Resolved
           match head (Underscore.flatten records) with
           | None => NOT_SETUP
           | Some raw =>
               if String.eqb raw EmptyString then NOT_SETUP
               else if bool_decide (tags (dmarcParse raw) = ∅) then INVALID
               else SETUP
           end
     | Rejected err => Rejected err
     end, (calls ++ ["_dmarc." ++ domain]%string)%list).
Proof.
  unfold dmarcSetup, mbind, promise_bind, await.
  rewrite getDMARCRecord_run.
  destruct (classify _) as [records|err]; [|reflexivity].
  destruct (head (Underscore.flatten records)) as [raw|]; [|reflexivity]. simpl.
  destruct (String.eqb raw EmptyString); [reflexivity|]. simpl.
  destruct (bool_decide _); reflexivity.
Qed.

(** C8, as the module has it.  [dmarcSetup] gives [not_setup] when there
    is no TXT record at [_dmarc.<domain>] and also when the first chunk
    is the empty string; otherwise it parses that first chunk only and
    gives [invalid] for an empty tag mapping and [setup] for a non-empty
    one. *)
Theorem dmarcSetup_first_record domain calls records :
  fst (_getDNSTXTRecords answers ("_dmarc." ++ domain)%string calls) = Resolved records ->
  fst (dmarcSetup answers dmarcParse domain calls)
  = Resolved
      match head (Underscore.flatten records) with
      | None => NOT_SETUP
      | Some raw =>
          if String.eqb raw EmptyString then NOT_SETUP
          else if bool_decide (tags (dmarcParse raw) = ∅) then INVALID
          else SETUP
      end.
Proof.
  rewrite getDNSTXTRecords_run, dmarcSetup_run. simpl. intros ->. reflexivity.
Qed.

End DMARC.

Lemma dmarcSetup_first_record_witness :
  fst (dmarcSetup Fixture.answers Fixture.dmarcParse "no.spf.com" []) = Resolved NOT_SETUP
  /\ fst (dmarcSetup Fixture.answers Fixture.dmarcParse "invalid.spf.com" [])
     = Resolved INVALID
  /\ fst (dmarcSetup Fixture.answers Fixture.dmarcParse "valid.spf.com" [])
     = Resolved SETUP.
Proof.
  split; [|split].
  - exact (dmarcSetup_first_record Fixture.answers Fixture.dmarcParse
             "no.spf.com" [] None eq_refl).
  - exact (dmarcSetup_first_record Fixture.answers Fixture.dmarcParse
             "invalid.spf.com" [] (Some [["invalid dmarc"]]) eq_refl).
  - exact (dmarcSetup_first_record Fixture.answers Fixture.dmarcParse
             "valid.spf.com" [] (Some [["v=DMARC1; p=none"]]) eq_refl).
Defined.

(** C8 as stated fails: at [_dmarc.empty.txt.com] TXT records exist and
    the first chunk is the empty string; [dmarcSetup] answers [not_setup]
    without parsing it, which is neither [invalid] nor [setup]. *)
Lemma dmarcSetup_empty_first_chunk :
  Fixture.answers "_dmarc.empty.txt.com"
    = Resolved [[EmptyString; "v=DMARC1; p=none"]]
  /\ fst (dmarcSetup Fixture.answers Fixture.dmarcParse "empty.txt.com" [])
     = Resolved NOT_SETUP
  /\ fst (dmarcSetup Fixture.answers Fixture.dmarcParse "empty.txt.com" [])
     <> Resolved (if bool_decide (tags (Fixture.dmarcParse EmptyString) = ∅)
                  then INVALID else SETUP).
Proof.
  assert (Hrun : fst (dmarcSetup Fixture.answers Fixture.dmarcParse "empty.txt.com" [])
                 = Resolved NOT_SETUP) by reflexivity.
  split; [reflexivity|]. split; [exact Hrun|].
  rewrite Hrun. destruct (bool_decide _); discriminate.
Qed.

(** ** [spfRecordResolvesWithinDnsLookupsLimit], for any inspector *)

Section LookupsLimit.
Variable SpfInspector : string -> Z -> bool -> Promise Report.

Lemma spfRecordResolvesWithinDnsLookupsLimit_run domain limit calls :
  spfRecordResolvesWithinDnsLookupsLimit SpfInspector domain limit calls
  = (match fst (SpfInspector domain limit true calls) with
     | Resolved report =>
         Resolved (Z.of_nat (length (includes (found report)))
                   + Z.of_nat (length (domains (found report))) <=? limit)
     | Rejected err =>
         if Underscore.contains NO_DNS_RECORD (code err)
         then Resolved false else Rejected err
     end, snd (SpfInspector domain limit true calls)).
Proof.
  unfold spfRecordResolvesWithinDnsLookupsLimit, try_catch, mbind, promise_bind, await.
  destruct (SpfInspector domain limit true calls) as [[report|err] calls']; simpl.
  - reflexivity.
  - destruct (Underscore.contains _ _); reflexivity.
Qed.

End LookupsLimit.

(** ** Missing records and other resolution failures *)

Lemma other_failure_iff err :
  Underscore.contains NO_DNS_RECORD (code err) = false <-> otherFailure err.
Proof.
  unfold otherFailure, Underscore.contains, NO_DNS_RECORD.
  destruct (code err) as [c|].
  - cbn [existsb]. rewrite !orb_false_iff, !String.eqb_neq.
    split.
    + intros (H1 & H2 & H3 & _). repeat split; congruence.
    + intros (H1 & H2 & H3). repeat split; congruence.
  - split; [intros _; repeat split; discriminate | reflexivity].
Qed.





(** ** spf-master's inspector, step by step *)

Section InspectorSteps.
Variable answers : dns.Answers.
Variable spfParse : string -> SpfRecord.

Lemma inspect_run depth domain acc calls :
  SpfMaster.inspect answers spfParse depth domain acc calls
  = match answers domain with
    | Rejected err => (Rejected err, (calls ++ [domain])%list)
    | Resolved records =>
        match firstSpf (Some records) with
        | None => (Resolved acc, (calls ++ [domain])%list)
        | Some raw =>
            SpfMaster.walk (follow answers spfParse depth) domain
              (lookups (spfParse raw)) acc (calls ++ [domain])%list
        end
    end.
Proof.
  unfold firstSpf, lookups, follow, Underscore.flatten.
  destruct depth; simpl; unfold mbind, promise_bind, await, dns.resolveTxt;
    destruct (answers domain) as [records|err]; try reflexivity;
    destruct (List.find _ _); reflexivity.
Qed.

Lemma SpfInspector_run domain maxDepth flag calls :
  SpfMaster.SpfInspector answers spfParse domain maxDepth flag calls
  = match SpfMaster.inspect answers spfParse (Z.to_nat maxDepth) domain
            {| includes := []; domains := [] |} calls with
    | (Resolved acc, calls') => (Resolved {| found := acc |}, calls')
    | (Rejected err, calls') => (Rejected err, calls')
    end.
Proof. reflexivity. Qed.

(** C2.  When the resolution of the root domain fails with NOTFOUND,
    NODATA or SERVFAIL, the check answers false whatever the limit, after
    exactly one TXT resolution, that of the domain. *)
Theorem no_spf_record_one_lookup domain limit calls err :
  answers domain = Rejected err ->
  code err = Some dns.NOTFOUND \/ code err = Some dns.NODATA
  \/ code err = Some dns.SERVFAIL ->
  spfRecordResolvesWithinDnsLookupsLimit
    (SpfMaster.SpfInspector answers spfParse) domain limit calls
  = (Resolved false, (calls ++ [domain])%list).
Proof.
  intros Hanswer Hcode.
  rewrite spfRecordResolvesWithinDnsLookupsLimit_run, SpfInspector_run,
    inspect_run, Hanswer. simpl.
  destruct Hcode as [-> | [-> | ->]]; reflexivity.
Qed.

End InspectorSteps.

Lemma no_spf_record_one_lookup_witness :
  spfRecordResolvesWithinDnsLookupsLimit
    (SpfMaster.SpfInspector Fixture.answers Fixture.spfParse) "no.spf.com" 10000 []
  = (Resolved false, ["no.spf.com"]).
Proof.
  exact (no_spf_record_one_lookup Fixture.answers Fixture.spfParse "no.spf.com" 10000 []
           (Fixture.dnsErr dns.NODATA) eq_refl (or_intror (or_introl eq_refl))).
Defined.

(** ** The lookups limit and the validity flag *)

(** C10.  The lookups-limit check reads only the two tallies of the
    inspector's report: for a domain whose SPF record is there but parses
    as invalid, it answers true whenever the tallies sum to at most the
    limit, while [spfSetup] answers [invalid] for the same domain. *)
Theorem lookups_limit_ignores_validity
    (answers : dns.Answers) (spfParse : string -> SpfRecord)
    (SpfInspector : string -> Z -> bool -> Promise Report)
    (domain : string) (limit : Z) (validations : Validations)
    (calls : Calls) (records : option (list (list string))) (raw : string)
    (report : Report) :
  fst (_getDNSTXTRecords answers domain calls) = Resolved records ->
  firstSpf records = Some raw ->
  valid (spfParse raw) = false ->
  fst (SpfInspector domain limit true calls) = Resolved report ->
  Z.of_nat (length (includes (found report)) + length (domains (found report))) <= limit ->
  fst (spfRecordResolvesWithinDnsLookupsLimit SpfInspector domain limit calls)
    = Resolved true
  /\ fst (spfSetup answers spfParse domain validations calls) = Resolved INVALID.
Proof.
  rewrite getDNSTXTRecords_run, spfRecordResolvesWithinDnsLookupsLimit_run, spfSetup_run.
  simpl. intros -> -> -> -> Hcount. simpl. split; [|reflexivity].
  f_equal. apply Z.leb_le. lia.
Qed.

Lemma lookups_limit_ignores_validity_witness :
  fst (spfRecordResolvesWithinDnsLookupsLimit
         (SpfMaster.SpfInspector Fixture.answers Fixture.spfParse)
         "invalid.spf.com" 10 []) = Resolved true
  /\ fst (spfSetup Fixture.answers Fixture.spfParse "invalid.spf.com"
            default_validations []) = Resolved INVALID.
Proof.
  apply (lookups_limit_ignores_validity Fixture.answers Fixture.spfParse
           (SpfMaster.SpfInspector Fixture.answers Fixture.spfParse)
           "invalid.spf.com" 10 default_validations []
           (Some [["v=spf1 redirect=foo.com redirect=bar.com ~all"]])
           "v=spf1 redirect=foo.com redirect=bar.com ~all"
           {| found := {| includes := []; domains := [] |} |});
    try reflexivity.
  vm_compute. discriminate.
Defined.

(** * Further properties of the module *)

(** ** One lookup per check *)

(** X1.  Each of the four record checks makes exactly one call to the
    resolver, whatever its outcome: [spfSetup] and [hasSPFSender] for the
    domain itself, the DKIM check for [<selector>._domainkey.<domain>] and
    the DMARC check for [_dmarc.<domain>]. *)
Theorem each_check_makes_one_lookup
    (answers : dns.Answers) (spfParse : string -> SpfRecord)
    (dmarcParse : string -> DmarcRecord)
    (domain sender selector : string) (validations : Validations) (calls : Calls) :
  snd (spfSetup answers spfParse domain validations calls) = (calls ++ [domain])%list
  /\ snd (hasSPFSender answers spfParse domain sender calls) = (calls ++ [domain])%list
  /\ snd (hasDKIMRecordForSelector answers domain selector calls)
     = (calls ++ [dkimName domain selector])%list
  /\ snd (dmarcSetup answers dmarcParse domain calls)
     = (calls ++ [dmarcName domain])%list.
Proof.
  rewrite spfSetup_run, hasSPFSender_run, hasDKIMRecordForSelector_run, dmarcSetup_run.
  repeat split.
Qed.

(** X2.  A check reads the resolver at its one name only: two resolvers
    that answer alike for that name give the same result and the same
    calls, whatever they answer for other names. *)
Theorem checks_read_one_name
    (answers others : dns.Answers) (spfParse : string -> SpfRecord)
    (dmarcParse : string -> DmarcRecord)
    (domain selector : string) (validations : Validations) (calls : Calls) :
  (others domain = answers domain ->
   spfSetup others spfParse domain validations calls
   = spfSetup answers spfParse domain validations calls)
  /\ (others (dkimName domain selector) = answers (dkimName domain selector) ->
      hasDKIMRecordForSelector others domain selector calls
      = hasDKIMRecordForSelector answers domain selector calls)
  /\ (others (dmarcName domain) = answers (dmarcName domain) ->
      dmarcSetup others dmarcParse domain calls
      = dmarcSetup answers dmarcParse domain calls).
Proof.
  rewrite !spfSetup_run, !hasDKIMRecordForSelector_run, !dmarcSetup_run.
  unfold dkimName, dmarcName.
  split; [|split]; intros ->; reflexivity.
Qed.

Lemma checks_read_one_name_witness :
  spfSetup (override Fixture.answers "_dmarc.valid.spf.com" (Resolved []))
    Fixture.spfParse "valid.spf.com" default_validations []
  = spfSetup Fixture.answers Fixture.spfParse "valid.spf.com" default_validations [].
Proof.
  exact (proj1 (checks_read_one_name Fixture.answers
                  (override Fixture.answers "_dmarc.valid.spf.com" (Resolved []))
                  Fixture.spfParse Fixture.dmarcParse "valid.spf.com" "google"
                  default_validations []) eq_refl).
Defined.

(** ** Validations *)

(** X3.  Asking for more validations can only turn [setup] into
    [invalid]: with every validation of [lax] also requested in [strict],
    the two results are the same or the lax one is [setup] and the strict
    one [invalid].  In particular [not_setup], [invalid] and a rejection
    are the same under every choice of validations. *)
Theorem stricter_validations_only_invalidate
    (answers : dns.Answers) (spfParse : string -> SpfRecord)
    (domain : string) (lax strict : Validations) (calls : Calls) :
  (allMechanismIsTheLast lax = true -> allMechanismIsTheLast strict = true) ->
  (allMechanismOrRedirectModifierIsPresent lax = true ->
   allMechanismOrRedirectModifierIsPresent strict = true) ->
  fst (spfSetup answers spfParse domain strict calls)
  = fst (spfSetup answers spfParse domain lax calls)
  \/ (fst (spfSetup answers spfParse domain lax calls) = Resolved SETUP
      /\ fst (spfSetup answers spfParse domain strict calls) = Resolved INVALID).
Proof.
  intros Hlast Hpresent. rewrite !spfSetup_run. simpl.
  destruct (classify (answers domain)) as [records|err]; [|left; reflexivity].
  destruct (firstSpf records) as [raw|]; [|left; reflexivity].
  destruct (valid (spfParse raw)); [|left; reflexivity]. simpl.
  destruct (allMechanismIsTheLast lax), (allMechanismOrRedirectModifierIsPresent lax);
    try rewrite (Hlast eq_refl); try rewrite (Hpresent eq_refl);
    destruct (allMechanismIsTheLast strict),
             (allMechanismOrRedirectModifierIsPresent strict);
    destruct (emitted ALL_MECHANISM_IS_NOT_THE_LAST (spfParse raw)),
             (emitted ALL_AND_REDIRECT_ARE_MISSING (spfParse raw));
    simpl; auto.
Qed.

Lemma stricter_validations_only_invalidate_witness :
  fst (spfSetup Fixture.answers Fixture.spfParse "warned.spf.com"
         (mkValidations true true) [])
  = fst (spfSetup Fixture.answers Fixture.spfParse "warned.spf.com"
           default_validations [])
  \/ (fst (spfSetup Fixture.answers Fixture.spfParse "warned.spf.com"
             default_validations []) = Resolved SETUP
      /\ fst (spfSetup Fixture.answers Fixture.spfParse "warned.spf.com"
                (mkValidations true true) []) = Resolved INVALID).
Proof.
  apply (stricter_validations_only_invalidate Fixture.answers Fixture.spfParse
           "warned.spf.com" default_validations (mkValidations true true) []);
    simpl; discriminate.
Defined.

(** ** The sender check against the setup check *)

(** X4.  [hasSPFSender] and [spfSetup] read the same record: a sender is
    only ever found in a record that [spfSetup] (without validations)
    reports as [setup]; when [spfSetup] reports [not_setup] or [invalid]
    no sender is found; and one is rejected with an error exactly when the
    other is. *)
Theorem sender_check_agrees_with_setup
    (answers : dns.Answers) (spfParse : string -> SpfRecord)
    (domain sender : string) (validations : Validations) (calls calls' : Calls) :
  (fst (hasSPFSender answers spfParse domain sender calls) = Resolved true ->
   fst (spfSetup answers spfParse domain default_validations calls') = Resolved SETUP)
  /\ (fst (spfSetup answers spfParse domain default_validations calls') = Resolved NOT_SETUP
      \/ fst (spfSetup answers spfParse domain default_validations calls') = Resolved INVALID ->
      fst (hasSPFSender answers spfParse domain sender calls) = Resolved false)
  /\ (forall err,
        fst (hasSPFSender answers spfParse domain sender calls) = Rejected err
        <-> fst (spfSetup answers spfParse domain validations calls') = Rejected err).
Proof.
  rewrite !spfSetup_run, hasSPFSender_run. simpl.
  destruct (classify (answers domain)) as [records|err].
  - destruct (firstSpf records) as [raw|].
    + destruct (valid (spfParse raw)); simpl.
      * split; [reflexivity|]. split.
        -- intros [H|H]; discriminate.
        -- intros err. split; [discriminate|].
           destruct (_ && _); [discriminate|]. destruct (_ && _); discriminate.
      * split; [discriminate|]. split; [reflexivity|].
        intros err. split; discriminate.
    + split; [discriminate|]. split; [reflexivity|].
      intros err. split; discriminate.
  - split; [discriminate|]. split; [intros [H|H]; discriminate|].
    intros err'. split; intros H; injection H as <-; reflexivity.
Qed.

Lemma sender_check_agrees_with_setup_witness :
  fst (spfSetup Fixture.answers Fixture.spfParse "valid.spf.com" default_validations [])
  = Resolved SETUP.
Proof.
  apply (proj1 (sender_check_agrees_with_setup Fixture.answers Fixture.spfParse
                  "valid.spf.com" "_spf.google.com" default_validations [] [])).
  reflexivity.
Defined.

(** ** Which TXT chunk is the SPF record *)

Lemma find_first_match {X} (f : X -> bool) pre x post :
  Forall (fun y => f y = false) pre -> f x = true ->
  List.find f (pre ++ x :: post)%list = Some x.
Proof.
  intros Hpre Hx. induction Hpre as [|y pre Hy _ IH]; simpl.
  - rewrite Hx. reflexivity.
  - rewrite Hy. exact IH.
Qed.

(** X5.  Of all the TXT chunks of a domain, the first one starting with
    [v=spf1] alone decides [spfSetup] and [hasSPFSender]: chunks before it
    are skipped and whatever follows it, a second SPF record included, is
    ignored.  The checks behave as if that chunk were the only TXT
    record. *)
Theorem first_spf_chunk_decides
    (answers single : dns.Answers) (spfParse : string -> SpfRecord)
    (domain sender : string) (validations : Validations) (calls : Calls)
    (records : list (list string)) (pre : list string) (raw : string)
    (post : list string) :
  answers domain = Resolved records ->
  concat records = (pre ++ raw :: post)%list ->
  Forall (fun chunk => String.prefix "v=spf1" chunk = false) pre ->
  String.prefix "v=spf1" raw = true ->
  single domain = Resolved [[raw]] ->
  spfSetup answers spfParse domain validations calls
  = spfSetup single spfParse domain validations calls
  /\ hasSPFSender answers spfParse domain sender calls
     = hasSPFSender single spfParse domain sender calls.
Proof.
  intros Hanswer Hchunks Hpre Hraw Hsingle.
  rewrite !spfSetup_run, !hasSPFSender_run, Hanswer, Hsingle.
  assert (Hfirst : firstSpf (Some records) = Some raw).
  { unfold firstSpf, Underscore.flatten. rewrite Hchunks.
    apply find_first_match; assumption. }
  assert (Hone : firstSpf (Some [[raw]]) = Some raw).
  { unfold firstSpf, Underscore.flatten.
    apply (find_first_match (String.prefix "v=spf1") [] raw []); [constructor | exact Hraw]. }
  cbn [classify]. rewrite Hfirst, Hone. split; reflexivity.
Qed.

Lemma first_spf_chunk_decides_witness :
  let crowded :=
    override Fixture.answers "valid.spf.com"
      (Resolved [["site-verification=1"];
                 ["v=spf1 include:_spf.google.com -all";
                  "v=spf1 redirect=foo.com redirect=bar.com ~all"]]) in
  spfSetup crowded Fixture.spfParse "valid.spf.com" default_validations []
  = spfSetup Fixture.answers Fixture.spfParse "valid.spf.com" default_validations []
  /\ hasSPFSender crowded Fixture.spfParse "valid.spf.com" "_spf.google.com" []
     = hasSPFSender Fixture.answers Fixture.spfParse "valid.spf.com" "_spf.google.com" [].
Proof.
  intros crowded.
  apply (first_spf_chunk_decides crowded Fixture.answers Fixture.spfParse
           "valid.spf.com" "_spf.google.com" default_validations []
           [["site-verification=1"];
            ["v=spf1 include:_spf.google.com -all";
             "v=spf1 redirect=foo.com redirect=bar.com ~all"]]
           ["site-verification=1"]
           "v=spf1 include:_spf.google.com -all"
           ["v=spf1 redirect=foo.com redirect=bar.com ~all"]);
    try reflexivity.
  repeat constructor.
Defined.

(** X6.  Only the sequence of chunks matters, not how the resolver groups
    them into records: resolvers whose answers flatten alike give the same
    result for each of the four record checks.  In particular the chunks
    of one long record are never joined. *)
Theorem chunk_grouping_is_irrelevant
    (answers others : dns.Answers) (spfParse : string -> SpfRecord)
    (dmarcParse : string -> DmarcRecord)
    (domain sender selector : string) (validations : Validations) (calls : Calls) :
  (forall name, same_chunks (answers name) (others name)) ->
  spfSetup answers spfParse domain validations calls
  = spfSetup others spfParse domain validations calls
  /\ hasSPFSender answers spfParse domain sender calls
     = hasSPFSender others spfParse domain sender calls
  /\ hasDKIMRecordForSelector answers domain selector calls
     = hasDKIMRecordForSelector others domain selector calls
  /\ dmarcSetup answers dmarcParse domain calls
     = dmarcSetup others dmarcParse domain calls.
Proof.
  intros Hsame.
  rewrite !spfSetup_run, !hasSPFSender_run, !hasDKIMRecordForSelector_run, !dmarcSetup_run.
  pose proof (Hsame domain) as Hspf.
  pose proof (Hsame (selector ++ "._domainkey." ++ domain)%string) as Hdkim.
  pose proof (Hsame ("_dmarc." ++ domain)%string) as Hdmarc.
  unfold same_chunks in Hspf, Hdkim, Hdmarc.
  repeat split.
  - destruct (answers domain), (others domain); try contradiction.
    + cbn [classify]. unfold firstSpf, Underscore.flatten. rewrite Hspf. reflexivity.
    + subst. reflexivity.
  - destruct (answers domain), (others domain); try contradiction.
    + cbn [classify]. unfold firstSpf, Underscore.flatten. rewrite Hspf. reflexivity.
    + subst. reflexivity.
  - destruct (answers (selector ++ _)%string), (others (selector ++ _)%string);
      try contradiction.
    + rewrite Hdkim. reflexivity.
    + subst. reflexivity.
  - destruct (answers ("_dmarc." ++ _)%string), (others ("_dmarc." ++ _)%string);
      try contradiction.
    + cbn [classify]. unfold Underscore.flatten. rewrite Hdmarc. reflexivity.
    + subst. reflexivity.
Qed.

Lemma chunk_grouping_is_irrelevant_witness :
  let joined :=
    override (override Fixture.answers
                "_dmarc.split.com" (Resolved [[EmptyString; "v=DMARC1; p=none"]]))
      "long.spf.com" (Resolved [["v=spf1 include:_spf.google.com -all"; "mx -all"]]) in
  let apart :=
    override (override Fixture.answers
                "_dmarc.split.com" (Resolved [[EmptyString]; ["v=DMARC1; p=none"]]))
      "long.spf.com" (Resolved [["v=spf1 include:_spf.google.com -all"]; ["mx -all"]]) in
  joined "long.spf.com" <> apart "long.spf.com"
  /\ spfSetup joined Fixture.spfParse "long.spf.com" default_validations []
     = spfSetup apart Fixture.spfParse "long.spf.com" default_validations []
  /\ dmarcSetup joined Fixture.dmarcParse "split.com" []
     = dmarcSetup apart Fixture.dmarcParse "split.com" [].
Proof.
  intros joined apart.
  assert (Hsame : forall name, same_chunks (joined name) (apart name)).
  { intros name. unfold joined, apart, override.
    destruct (String.eqb name "long.spf.com"); [reflexivity|].
    destruct (String.eqb name "_dmarc.split.com"); [reflexivity|].
    unfold same_chunks. destruct (Fixture.answers name); reflexivity. }
  split; [discriminate|]. split.
  - exact (proj1 (chunk_grouping_is_irrelevant joined apart
                    Fixture.spfParse Fixture.dmarcParse
                    "long.spf.com" "_spf.google.com" "google" default_validations []
                    Hsame)).
  - exact (proj2 (proj2 (proj2
             (chunk_grouping_is_irrelevant joined apart
                Fixture.spfParse Fixture.dmarcParse
                "split.com" "_spf.google.com" "google" default_validations []
                Hsame)))).
Defined.

(** ** The results a caller can see *)

(** X7.  [spfSetup], the DKIM check and [dmarcSetup] settle with one of
    the three exported constants and nothing else, and the three constants
    are pairwise different, so that comparing a result with them tells the
    three states apart. *)
Theorem setup_states_are_the_exported_constants
    (answers : dns.Answers) (spfParse : string -> SpfRecord)
    (dmarcParse : string -> DmarcRecord)
    (domain selector : string) (validations : Validations) (calls : Calls) :
  is_setup_state (fst (spfSetup answers spfParse domain validations calls))
  /\ is_setup_state (fst (hasDKIMRecordForSelector answers domain selector calls))
  /\ is_setup_state (fst (dmarcSetup answers dmarcParse domain calls))
  /\ NOT_SETUP <> INVALID /\ INVALID <> SETUP /\ NOT_SETUP <> SETUP.
Proof.
  rewrite spfSetup_run, hasDKIMRecordForSelector_run, dmarcSetup_run.
  unfold is_setup_state. simpl. repeat split; try discriminate.
  - destruct (classify (answers domain)) as [records|err]; [|exact I].
    destruct (firstSpf records) as [raw|]; [|auto].
    destruct (negb _); [auto|]. destruct (_ && _); [auto|]. destruct (_ && _); auto.
  - destruct (answers (selector ++ _)%string) as [records|err].
    + destruct (0 <? _); auto.
    + destruct (Underscore.contains _ _); [auto | exact I].
  - destruct (classify (answers ("_dmarc." ++ _)%string)) as [records|err]; [|exact I].
    destruct (head _) as [raw|]; [|auto].
    destruct (String.eqb raw EmptyString); [auto|]. destruct (bool_decide _); auto.
Qed.

(** ** The lookups-limit check, for any inspector *)

(** X8.  Whatever the inspector, the lookups-limit check is true exactly
    when the inspection succeeds with at most [limit] lookups in total, and
    false exactly when it succeeds with more or fails for a missing
    record; so with a negative limit it is never true.  The check makes no
    resolver call of its own. *)
Theorem lookups_limit_decision
    (SpfInspector : string -> Z -> bool -> Promise Report)
    (domain : string) (limit : Z) (calls : Calls) :
  let result := spfRecordResolvesWithinDnsLookupsLimit SpfInspector domain limit calls in
  let inspection := SpfInspector domain limit true calls in
  let total report :=
    Z.of_nat (length (includes (found report)) + length (domains (found report))) in
  (fst result = Resolved true
   <-> exists report, fst inspection = Resolved report /\ total report <= limit)
  /\ (fst result = Resolved false
      <-> (exists report, fst inspection = Resolved report /\ limit < total report)
          \/ (exists err, fst inspection = Rejected err
                          /\ Underscore.contains NO_DNS_RECORD (code err) = true))
  /\ (limit < 0 -> fst result <> Resolved true)
  /\ snd result = snd inspection.
Proof.
  cbv beta zeta. rewrite spfRecordResolvesWithinDnsLookupsLimit_run. simpl.
  destruct (fst (SpfInspector domain limit true calls)) as [report|err].
  - repeat split.
    + intros H. injection H as H. apply Z.leb_le in H.
      exists report. split; [reflexivity | lia].
    + intros (report' & Heq & Hle). injection Heq as <-.
      f_equal. apply Z.leb_le. lia.
    + intros H. injection H as H. apply Z.leb_gt in H. left.
      exists report. split; [reflexivity | lia].
    + intros [(report' & Heq & Hlt) | (err & Heq & _)]; [|discriminate].
      injection Heq as <-. f_equal. apply Z.leb_gt. lia.
    + intros Hneg H. injection H as H. apply Z.leb_le in H. lia.
  - repeat split.
    + destruct (Underscore.contains _ _); discriminate.
    + intros (report & Heq & _). discriminate.
    + destruct (Underscore.contains _ _) eqn:Hcode; [|discriminate].
      intros _. right. exists err. split; [reflexivity | exact Hcode].
    + intros [(report & Heq & _) | (err' & Heq & Hcode)]; [discriminate|].
      injection Heq as <-. rewrite Hcode. reflexivity.
    + intros _. destruct (Underscore.contains _ _); discriminate.
Qed.

Lemma lookups_limit_decision_witness :
  fst (spfRecordResolvesWithinDnsLookupsLimit
         (SpfMaster.SpfInspector Fixture.answers Fixture.spfParse)
         "invalid.spf.com" (-1) []) <> Resolved true.
Proof.
  apply (proj1 (proj2 (proj2
           (lookups_limit_decision
              (SpfMaster.SpfInspector Fixture.answers Fixture.spfParse)
              "invalid.spf.com" (-1) [])))).
  reflexivity.
Defined.

(** ** When a lookup fails *)

Lemma classify_rejected answer err :
  classify answer = Rejected err <-> answer = Rejected err /\ otherFailure err.
Proof.
  rewrite <- other_failure_iff. destruct answer as [records|err']; simpl.
  - split; [discriminate | intros [H _]; discriminate].
  - destruct (Underscore.contains _ _) eqn:Hcode.
    + split; [discriminate|]. intros [H Hc]. injection H as ->. congruence.
    + split.
      * intros H. injection H as ->. auto.
      * intros [H _]. injection H as ->. reflexivity.
Qed.

(** X9.  The TXT fetch [_getDNSTXTRecords] and the DKIM check, which call
    no parser, are rejected with an error exactly when the resolver failed
    with that very error and its code is none of NOTFOUND, NODATA and
    SERVFAIL, an error without a code included; after a successful
    resolution they are never rejected. *)
Theorem lookups_reject_only_on_other_failures
    (answers : dns.Answers) (domain selector : string) (calls : Calls)
    (err : JsError) :
  (fst (_getDNSTXTRecords answers domain calls) = Rejected err
   <-> answers domain = Rejected err /\ otherFailure err)
  /\ (fst (hasDKIMRecordForSelector answers domain selector calls) = Rejected err
      <-> answers (dkimName domain selector) = Rejected err /\ otherFailure err).
Proof.
  rewrite getDNSTXTRecords_run, hasDKIMRecordForSelector_run.
  unfold dkimName. simpl.
  rewrite <- !classify_rejected. split; [reflexivity|].
  destruct (answers (selector ++ _)%string) as [records|err']; simpl;
    [split; discriminate|].
  destruct (Underscore.contains _ _); [split; discriminate|].
  split; intros H; injection H as ->; reflexivity.
Qed.

(** ** The earlier revision against the current one *)







